(** * Batch action backend (Backend/app.py): a shallow embedding

    The development follows the source file top-down: Python values and
    strings, the four regular expressions of [extract_tweet_id] with a
    backtracking matcher for [re.search], the Twitter client and the
    discovery engines as external collaborators threading a world state,
    the two discovery handlers and the four batch handlers.  Theorems
    come after all definitions. *)

From Stdlib Require Import ZArith NArith List String Ascii Bool Lia.
From Stdlib Require Import SpecFloat.
From stdpp Require Import base option list gmap.
Import ListNotations.

Local Open Scope Z_scope.

Set Warnings "-register-all".

(** ** Python values *)

(** A Python [str] is a sequence of Unicode code points. *)
Abbreviation pystr := (list N).

(** An ASCII literal, code point by code point. *)
Definition lit (s : string) : pystr :=
  List.map N_of_ascii (list_ascii_of_string s).

(** The values a JSON body can hold, plus what the client hands back. *)
Inductive pyval : Type :=
| VNone
| VBool (b : bool)
| VInt (z : Z)
| VFloat (f : spec_float)
| VStr (s : pystr)
| VList (l : list pyval)
| VDict (d : gmap pystr pyval).

(** A [dict] with string keys, as [List[dict]] of the request model has. *)
Abbreviation pydict := (gmap pystr pyval).

(** Python truthiness ([if not x], [x or y], [if x]). *)
Definition truthy (v : pyval) : bool :=
  match v with
  | VNone => false
  | VBool b => b
  | VInt z => negb (z =? 0)
  | VFloat f =>
      match f with
      | S754_zero _ => false
      | _ => true
      end
  | VStr s => match s with [] => false | _ => true end
  | VList l => match l with [] => false | _ => true end
  | VDict d => match map_to_list d with [] => false | _ => true end
  end.

(** [type(v).__name__], as it shows in an AttributeError message. *)
Definition type_name (v : pyval) : pystr :=
  match v with
  | VNone => lit "NoneType"
  | VBool _ => lit "bool"
  | VInt _ => lit "int"
  | VFloat _ => lit "float"
  | VStr _ => lit "str"
  | VList _ => lit "list"
  | VDict _ => lit "dict"
  end.

(** [d.get(key, dflt)] *)
Definition dict_get (d : pydict) (key : pystr) (dflt : pyval) : pyval :=
  default dflt (d !! key).

(** [s.replace(old, '')] for a one-character [old]: every occurrence goes. *)
Definition replace_char (old : N) (s : pystr) : pystr :=
  List.filter (fun c => negb (N.eqb c old)) s.

(** What the interpreter fixes and this file does not: the non-ASCII part
    of the Unicode classes behind [\d] and [\w], and [str()] of a value
    that is not already a string. *)
Record PyRuntime : Type := {
  unicode_digit : N -> bool;
  unicode_word : N -> bool;
  repr : pyval -> pystr
}.

(** [f"{v}"] *)
Definition format_value (rt : PyRuntime) (v : pyval) : pystr :=
  match v with
  | VStr s => s
  | _ => repr rt v
  end.

(** ** Regular expressions: the fragment the four patterns use *)

Module Re.

Inductive cls : Type := Digit | Word.

(** A pattern is a sequence of atoms: a literal character, or a greedy
  [+] over a class, inside capture group 1 or outside any group. *)
Inductive atom : Type :=
| Chr (c : N)
| Plus (k : cls) (captured : bool).

Abbreviation pattern := (list atom).

Definition chars (s : string) : pattern := List.map Chr (lit s).

Section Matcher.
Context (rt : PyRuntime).

Definition ascii_digit (c : N) : bool := (48 <=? c)%N && (c <=? 57)%N.

Definition ascii_word (c : N) : bool :=
  ascii_digit c
  || ((65 <=? c)%N && (c <=? 90)%N)
  || ((97 <=? c)%N && (c <=? 122)%N)
  || (c =? 95)%N.

(** [\d] and [\w] of a [str] pattern are Unicode-aware. *)
Definition in_cls (k : cls) (c : N) : bool :=
  match k with
  | Digit => if (c <? 128)%N then ascii_digit c else unicode_digit rt c
  | Word => if (c <? 128)%N then ascii_word c else unicode_word rt c
  end.

(** Greedy one-or-more: take a character of the class, first try to
    take more, and only then hand the rest to the continuation [k]
    together with what was consumed. *)
Fixpoint plus_greedy {R : Type} (c : cls)
    (k : pystr -> pystr -> option R)
    (taken s : pystr) : option R :=
  match s with
  | x :: s' =>
      if in_cls c x then
        match plus_greedy c k (taken ++ [x]) s' with
        | Some r => Some r
        | None => k (taken ++ [x]) s'
        end
      else None
  | [] => None
  end.

(** Match [p] at the start of [s]; [g] is group 1 so far.  The result
    is group 1 of the first match in backtracking order. *)
Fixpoint match_here (p : pattern) (g : option pystr) (s : pystr)
    : option (option pystr) :=
  match p with
  | [] => Some g
  | Chr c :: p' =>
      match s with
      | x :: s' => if (x =? c)%N then match_here p' g s' else None
      | [] => None
      end
  | Plus c captured :: p' =>
      plus_greedy c
        (fun taken rest =>
           match_here p' (if captured then Some taken else g) rest)
        [] s
  end.

(** [re.search(p, s)]: the match at the leftmost position that has one. *)
Fixpoint search (p : pattern) (s : pystr) : option (option pystr) :=
  match match_here p None s with
  | Some g => Some g
  | None =>
      match s with
      | [] => None
      | _ :: s' => search p s'
      end
  end.

End Matcher.
End Re.

(** ** [extract_tweet_id] (app.py 550-567) *)

Section Extract.
Context (rt : PyRuntime).

(** [r'status/(\d+)'] *)
Definition pattern_status : Re.pattern :=
  Re.chars "status/" ++ [Re.Plus Re.Digit true].

(** [r'twitter\.com/\w+/status/(\d+)'] *)
Definition pattern_twitter_user : Re.pattern :=
  Re.chars "twitter.com/" ++ [Re.Plus Re.Word false]
    ++ Re.chars "/status/" ++ [Re.Plus Re.Digit true].

(** [r'twitter\.com/status/(\d+)'] *)
Definition pattern_twitter : Re.pattern :=
  Re.chars "twitter.com/status/" ++ [Re.Plus Re.Digit true].

(** [r'x\.com/\w+/status/(\d+)'] *)
Definition pattern_x_user : Re.pattern :=
  Re.chars "x.com/" ++ [Re.Plus Re.Word false]
    ++ Re.chars "/status/" ++ [Re.Plus Re.Digit true].

Definition patterns : list Re.pattern :=
  [pattern_status; pattern_twitter_user; pattern_twitter; pattern_x_user].

(** The [for pattern in patterns] loop: return [match.group(1)] of the
    first pattern that matches.  A group that did not take part reads
    as [None]. *)
Fixpoint first_group (ps : list Re.pattern) (s : pystr) : option pystr :=
  match ps with
  | [] => None
  | p :: ps' =>
      match Re.search rt p s with
      | Some g => g
      | None => first_group ps' s
      end
  end.

(** The [try] body.  The argument is whatever the attendee dict holds
    under ['post_link']; [re.search] raises TypeError ([inr]) on
    anything but a string. *)
Definition extract_tweet_id_body (post_link : pyval)
    : option pystr + unit :=
  match post_link with
  | VStr s => inl (first_group patterns s)
  | _ => inr tt
  end.

(** [except Exception: return None] around the body. *)
Definition extract_tweet_id (post_link : pyval) : option pystr :=
  match extract_tweet_id_body post_link with
  | inl tweet_id => tweet_id
  | inr _ => None
  end.

End Extract.

(** ** External collaborators *)

(** A call into a collaborator returns a value or raises an [Exception];
    [msg] is [str(e)].  Every call also moves the outside world on. *)
Inductive call_result (A : Type) : Type :=
| Returns (a : A)
| Raises (msg : pystr).
Arguments Returns {A} a.
Arguments Raises {A} msg.

(** What a handler does to the outside, in program order. *)
Inductive event : Type :=
| CallIsOperational
| CallRetweet (tweet_id : pystr)
| CallLike (tweet_id : pystr)
| CallPostTweet (text reply_to : pystr)
| CallUpdateStatus (status : pystr)
| Sleep (seconds : Z)
| CallDiscoverEvents (location start_date end_date : pystr)
    (categories : list pystr) (max_results : Z)
| CallDiscoverAttendees (event_name : pystr) (event_date : option pystr)
    (max_results : Z).

(** The object [update_status] returns; only [tweet.id] is read. *)
Record Tweet : Type := { id : pyval }.

(** [twitter_client.api], the OAuth 1.1 handle. *)
Record Api (W : Type) : Type := {
  update_status : pystr -> W -> call_result Tweet * W
}.
Arguments update_status {W} _ _ _.

(** services.twitter_client.TwitterClient, by the calls app.py makes. *)
Record TwitterClient (W : Type) : Type := {
  api : option (Api W);
  is_operational : W -> call_result bool * W;
  retweet_tweet : pystr -> W -> call_result bool * W;
  like_tweet : pystr -> W -> call_result bool * W;
  post_tweet : pystr -> pystr -> W -> call_result pydict * W
}.
Arguments api {W} _.
Arguments is_operational {W} _ _.
Arguments retweet_tweet {W} _ _ _.
Arguments like_tweet {W} _ _ _.
Arguments post_tweet {W} _ _ _ _.

(** The modules app.py imports: the client class and the two engines. *)
Record Services (W : Type) : Type := {
  TwitterClient_new : W -> call_result (TwitterClient W) * W;
  event_engine_discover_events :
    pystr -> pystr -> pystr -> list pystr -> Z ->
    W -> call_result (list pydict) * W;
  attendee_engine_discover_attendees :
    pystr -> option pystr -> Z -> W -> call_result (list pydict) * W
}.
Arguments TwitterClient_new {W} _ _.
Arguments event_engine_discover_events {W} _ _ _ _ _ _ _.
Arguments attendee_engine_discover_attendees {W} _ _ _ _ _.

(** ** Request and response models *)

Module EventDiscoveryRequest.
Record t : Type := {
  location : pystr;
  start_date : pystr;
  end_date : pystr;
  categories : list pystr;
  max_results : Z
}.
End EventDiscoveryRequest.

Module AttendeeDiscoveryRequest.
Record t : Type := {
  event_name : pystr;
  event_date : option pystr;
  max_results : Z
}.
End AttendeeDiscoveryRequest.

Module TwitterActionRequest.
Record t : Type := {
  attendees : list pydict;
  message : option pystr
}.
End TwitterActionRequest.

(** The body of a discovery response, or [HTTPException(500, str(e))]. *)
Inductive DiscoveryResponse : Type :=
| discovered (records : list pydict) (total : Z) (requested_limit : Z)
| http_500 (detail : pystr).

(** One entry of [results]; the constructor is the ['status'] key. *)
Inductive ActionOutcome : Type :=
| failed (username : pyval) (error : pyval)
| retweeted (username : pyval) (tweet_id : pystr) (message : pystr)
| liked (username : pyval) (tweet_id : pystr) (message : pystr)
| commented (username : pyval) (tweet_id : pystr) (comment_id : pyval)
    (comment_text : pystr) (message : pystr)
| quoted (username : pyval) (original_tweet_id : pystr)
    (quote_tweet_id : pyval) (quote_text : pystr) (message : pystr).

(** [{"success": True, "<verb>_count": .., "failed_count": ..,
     "results": .., ("total_attempted": ..)}] *)
Record BatchActionReport : Type := {
  count_key : pystr;
  success_count : Z;
  failed_count : Z;
  total_attempted : option Z;
  results : list ActionOutcome
}.

(** What a batch handler returns: [{"success": False, "error": ..}] or
    a report. *)
Inductive BatchResponse : Type :=
| top_level_failure (error : pystr)
| report (r : BatchActionReport).

(** A handler run: the response, the world it leaves, what it did. *)
Record run (R W : Type) : Type := {
  response : R;
  final_world : W;
  events : list event
}.
Arguments response {R W} _.
Arguments final_world {R W} _.
Arguments events {R W} _.

(** ** The handlers

    Each handler takes the request and the world and gives back its
    response, the world it leaves and the calls and sleeps it made.
    The [print] lines of the source are left out: they touch nothing
    the handlers read or return. *)

Section Handlers.
Context {W : Type} (rt : PyRuntime) (svc : Services W).

(** *** Discovery (app.py 166-220) *)

Definition discover_events (request : EventDiscoveryRequest.t) (w : W)
    : run DiscoveryResponse W :=
  let max_results := EventDiscoveryRequest.max_results request in
  let max_results := if max_results >? 100 then 100 else max_results in
  let max_results := if max_results <? 1 then 1 else max_results in
  let location := EventDiscoveryRequest.location request in
  let start_date := EventDiscoveryRequest.start_date request in
  let end_date := EventDiscoveryRequest.end_date request in
  let categories := EventDiscoveryRequest.categories request in
  let call :=
    CallDiscoverEvents location start_date end_date categories max_results in
  match event_engine_discover_events svc
          location start_date end_date categories max_results w with
  | (Returns found, w') =>
      {| response := discovered found (Z.of_nat (length found)) max_results;
         final_world := w'; events := [call] |}
  | (Raises e, w') =>
      {| response := http_500 e; final_world := w'; events := [call] |}
  end.


(** *** The locals of a batch loop *)

Record loop_state : Type := {
  st_results : list ActionOutcome;
  st_successful : Z;
  st_world : W;
  st_trace : list event
}.

(** [results = []; successful = 0], after whatever the pre-check did. *)
Definition loop_init (w : W) (done : list event) : loop_state :=
  {| st_results := []; st_successful := 0; st_world := w; st_trace := done |}.

(** [results.append(o)] *)
Definition results_append (o : ActionOutcome) (st : loop_state) : loop_state :=
  {| st_results := st_results st ++ [o];
     st_successful := st_successful st;
     st_world := st_world st;
     st_trace := st_trace st |}.

(** [successful += 1] *)
Definition count_success (st : loop_state) : loop_state :=
  {| st_results := st_results st;
     st_successful := st_successful st + 1;
     st_world := st_world st;
     st_trace := st_trace st |}.

(** A call into the client: it is logged and the world moves to [w']. *)
Definition called (ev : event) (w' : W) (st : loop_state) : loop_state :=
  {| st_results := st_results st;
     st_successful := st_successful st;
     st_world := w';
     st_trace := st_trace st ++ [ev] |}.

(** [time.sleep(seconds)] *)
Definition time_sleep (seconds : Z) (st : loop_state) : loop_state :=
  {| st_results := st_results st;
     st_successful := st_successful st;
     st_world := st_world st;
     st_trace := st_trace st ++ [Sleep seconds] |}.

(** The per-item [except Exception as e] clause. *)
Definition except_Exception (username : pyval) (e : pystr)
    (st : loop_state) : loop_state :=
  results_append (failed username (VStr e)) st.

(** [request.message or dflt] *)
Definition message_or (message : option pystr) (dflt : pystr) : pystr :=
  match message with
  | Some (c :: s) => c :: s
  | _ => dflt
  end.

(** [username.replace('@', '')]: an AttributeError unless a string. *)
Definition username_replace_at (username : pyval) : call_result pystr :=
  match username with
  | VStr s => Returns (replace_char 64%N s)
  | _ =>
      Raises (lit "'" ++ type_name username
                ++ lit "' object has no attribute 'replace'")
  end.

Definition no_post_link : pyval := VStr (lit "No post link available").

Definition no_tweet_id : pyval :=
  VStr (lit "Could not extract tweet ID from link").

(** *** retweet_posts (app.py 222-296) *)

Definition retweet_item (twitter_client : TwitterClient W)
    (attendee : pydict) (st : loop_state) : loop_state :=
  let username := dict_get attendee (lit "username") (VStr []) in
  let post_link := dict_get attendee (lit "post_link") (VStr []) in
  if negb (truthy post_link) then
    results_append (failed username no_post_link) st
  else
    match extract_tweet_id rt post_link with
    | Some (c :: s) =>
        let tweet_id := c :: s in
        let (retweet_result, w') :=
          retweet_tweet twitter_client tweet_id (st_world st) in
        let st := called (CallRetweet tweet_id) w' st in
        match retweet_result with
        | Raises e => except_Exception username e st
        | Returns ok =>
            let st :=
              if ok then
                results_append
                  (retweeted username tweet_id
                     (lit "Successfully retweeted post from "
                        ++ format_value rt username))
                  (count_success st)
              else
                results_append
                  (failed username (VStr (lit "Retweet failed"))) st in
            time_sleep 2 st
        end
    | _ => results_append (failed username no_tweet_id) st
    end.

Definition retweet_loop (twitter_client : TwitterClient W)
    (attendees : list pydict) (st : loop_state) : loop_state :=
  fold_left (fun st attendee => retweet_item twitter_client attendee st)
    attendees st.

Definition retweet_posts (request : TwitterActionRequest.t) (w : W)
    : run BatchResponse W :=
  match TwitterClient_new svc w with
  | (Raises e, w) =>
      {| response := top_level_failure e; final_world := w; events := [] |}
  | (Returns twitter_client, w) =>
      match is_operational twitter_client w with
      | (Raises e, w) =>
          {| response := top_level_failure e; final_world := w;
             events := [CallIsOperational] |}
      | (Returns false, w) =>
          {| response := top_level_failure (lit "Twitter client not operational");
             final_world := w; events := [CallIsOperational] |}
      | (Returns true, w) =>
          let attendees := TwitterActionRequest.attendees request in
          let st :=
            retweet_loop twitter_client attendees
              (loop_init w [CallIsOperational]) in
          {| response :=
               report
                 {| count_key := lit "retweeted_count";
                    success_count := st_successful st;
                    failed_count :=
                      Z.of_nat (length attendees) - st_successful st;
                    total_attempted := None;
                    results := st_results st |};
             final_world := st_world st;
             events := st_trace st |}
      end
  end.

(** *** like_posts (app.py 298-372) *)

Definition like_item (twitter_client : TwitterClient W)
    (attendee : pydict) (st : loop_state) : loop_state :=
  let username := dict_get attendee (lit "username") (VStr []) in
  let post_link := dict_get attendee (lit "post_link") (VStr []) in
  if negb (truthy post_link) then
    results_append (failed username no_post_link) st
  else
    match extract_tweet_id rt post_link with
    | Some (c :: s) =>
        let tweet_id := c :: s in
        let (like_result, w') :=
          like_tweet twitter_client tweet_id (st_world st) in
        let st := called (CallLike tweet_id) w' st in
        match like_result with
        | Raises e => except_Exception username e st
        | Returns ok =>
            let st :=
              if ok then
                results_append
                  (liked username tweet_id
                     (lit "Successfully liked post from "
                        ++ format_value rt username))
                  (count_success st)
              else
                results_append
                  (failed username (VStr (lit "Like failed"))) st in
            time_sleep 2 st
        end
    | _ => results_append (failed username no_tweet_id) st
    end.

Definition like_loop (twitter_client : TwitterClient W)
    (attendees : list pydict) (st : loop_state) : loop_state :=
  fold_left (fun st attendee => like_item twitter_client attendee st)
    attendees st.

Definition like_posts (request : TwitterActionRequest.t) (w : W)
    : run BatchResponse W :=
  match TwitterClient_new svc w with
  | (Raises e, w) =>
      {| response := top_level_failure e; final_world := w; events := [] |}
  | (Returns twitter_client, w) =>
      match is_operational twitter_client w with
      | (Raises e, w) =>
          {| response := top_level_failure e; final_world := w;
             events := [CallIsOperational] |}
      | (Returns false, w) =>
          {| response := top_level_failure (lit "Twitter client not operational");
             final_world := w; events := [CallIsOperational] |}
      | (Returns true, w) =>
          let attendees := TwitterActionRequest.attendees request in
          let st :=
            like_loop twitter_client attendees
              (loop_init w [CallIsOperational]) in
          {| response :=
               report
                 {| count_key := lit "liked_count";
                    success_count := st_successful st;
                    failed_count :=
                      Z.of_nat (length attendees) - st_successful st;
                    total_attempted := None;
                    results := st_results st |};
             final_world := st_world st;
             events := st_trace st |}
      end
  end.

(** *** post_comments (app.py 374-459) *)

(** ["Great post! 👍"] *)
Definition default_comment : pystr := lit "Great post! " ++ [128077%N].

(** [f"@{clean_username} {custom_message}"] *)
Definition comment_text_of (clean_username custom_message : pystr) : pystr :=
  lit "@" ++ clean_username ++ lit " " ++ custom_message.

Definition comment_item (twitter_client : TwitterClient W)
    (message : option pystr) (attendee : pydict) (st : loop_state)
    : loop_state :=
  let username := dict_get attendee (lit "username") (VStr []) in
  let post_link := dict_get attendee (lit "post_link") (VStr []) in
  let custom_message := message_or message default_comment in
  if negb (truthy post_link) then
    results_append (failed username no_post_link) st
  else
    match extract_tweet_id rt post_link with
    | Some (c :: s) =>
        let tweet_id := c :: s in
        match username_replace_at username with
        | Raises e => except_Exception username e st
        | Returns clean_username =>
            let comment_text := comment_text_of clean_username custom_message in
            let (result, w') :=
              post_tweet twitter_client comment_text tweet_id (st_world st) in
            let st := called (CallPostTweet comment_text tweet_id) w' st in
            match result with
            | Raises e => except_Exception username e st
            | Returns result =>
                (* result['success'] *)
                match result !! lit "success" with
                | None => except_Exception username (lit "'success'") st
                | Some success =>
                    if truthy success then
                      let st := count_success st in
                      (* 'comment_id': result['tweet_id'] *)
                      match result !! lit "tweet_id" with
                      | None =>
                          except_Exception username (lit "'tweet_id'") st
                      | Some comment_id =>
                          time_sleep 3
                            (results_append
                               (commented username tweet_id comment_id
                                  comment_text
                                  (lit "Successfully commented on post from "
                                     ++ format_value rt username))
                               st)
                      end
                    else
                      time_sleep 3
                        (results_append
                           (failed username
                              (dict_get result (lit "error")
                                 (VStr (lit "Unknown error"))))
                           st)
                end
            end
        end
    | _ => results_append (failed username no_tweet_id) st
    end.

Definition comment_loop (twitter_client : TwitterClient W)
    (message : option pystr) (attendees : list pydict) (st : loop_state)
    : loop_state :=
  fold_left
    (fun st attendee => comment_item twitter_client message attendee st)
    attendees st.

Definition post_comments (request : TwitterActionRequest.t) (w : W)
    : run BatchResponse W :=
  match TwitterClient_new svc w with
  | (Raises e, w) =>
      {| response := top_level_failure e; final_world := w; events := [] |}
  | (Returns twitter_client, w) =>
      match is_operational twitter_client w with
      | (Raises e, w) =>
          {| response := top_level_failure e; final_world := w;
             events := [CallIsOperational] |}
      | (Returns false, w) =>
          {| response := top_level_failure (lit "Twitter client not operational");
             final_world := w; events := [CallIsOperational] |}
      | (Returns true, w) =>
          let attendees := TwitterActionRequest.attendees request in
          let st :=
            comment_loop twitter_client
              (TwitterActionRequest.message request) attendees
              (loop_init w [CallIsOperational]) in
          {| response :=
               report
                 {| count_key := lit "commented_count";
                    success_count := st_successful st;
                    failed_count :=
                      Z.of_nat (length attendees) - st_successful st;
                    total_attempted := None;
                    results := st_results st |};
             final_world := st_world st;
             events := st_trace st |}
      end
  end.

(** *** post_quote_tweets (app.py 461-548) *)

(** ["Check this out! 👀"] *)
Definition default_quote : pystr := lit "Check this out! " ++ [128064%N].

(** [f"{custom_message}\n\n🔁 Via @{clean_username}"] *)
Definition quote_text_of (custom_message clean_username : pystr) : pystr :=
  custom_message ++ [10%N; 10%N; 128257%N] ++ lit " Via @" ++ clean_username.

Definition quote_item (twitter_client : TwitterClient W)
    (message : option pystr) (attendee : pydict) (st : loop_state)
    : loop_state :=
  let username := dict_get attendee (lit "username") (VStr []) in
  let post_link := dict_get attendee (lit "post_link") (VStr []) in
  let custom_message := message_or message default_quote in
  if negb (truthy post_link) then
    results_append (failed username no_post_link) st
  else
    match extract_tweet_id rt post_link with
    | Some (c :: s) =>
        let tweet_id := c :: s in
        match username_replace_at username with
        | Raises e => except_Exception username e st
        | Returns clean_username =>
            let quote_text := quote_text_of custom_message clean_username in
            (* twitter_client.api.update_status(status=quote_text) *)
            match api twitter_client with
            | None =>
                except_Exception username
                  (lit "'NoneType' object has no attribute 'update_status'")
                  st
            | Some twitter_client_api =>
                let (tweet, w') :=
                  update_status twitter_client_api quote_text (st_world st) in
                let st := called (CallUpdateStatus quote_text) w' st in
                match tweet with
                | Raises e => except_Exception username e st
                | Returns tweet =>
                    time_sleep 3
                      (results_append
                         (quoted username tweet_id (id tweet) quote_text
                            (lit "Successfully quoted post from "
                               ++ format_value rt username))
                         (count_success st))
                end
            end
        end
    | _ => results_append (failed username no_tweet_id) st
    end.

Definition quote_loop (twitter_client : TwitterClient W)
    (message : option pystr) (attendees : list pydict) (st : loop_state)
    : loop_state :=
  fold_left
    (fun st attendee => quote_item twitter_client message attendee st)
    attendees st.

Definition post_quote_tweets (request : TwitterActionRequest.t) (w : W)
    : run BatchResponse W :=
  match TwitterClient_new svc w with
  | (Raises e, w) =>
      {| response := top_level_failure e; final_world := w; events := [] |}
  | (Returns twitter_client, w) =>
      match api twitter_client with
      | None =>
          {| response :=
               top_level_failure
                 (lit "Twitter OAuth 1.1 not configured for quote tweets");
             final_world := w; events := [] |}
      | Some _ =>
          let attendees := TwitterActionRequest.attendees request in
          let st :=
            quote_loop twitter_client
              (TwitterActionRequest.message request) attendees
              (loop_init w []) in
          {| response :=
               report
                 {| count_key := lit "quoted_count";
                    success_count := st_successful st;
                    failed_count :=
                      Z.of_nat (length attendees) - st_successful st;
                    total_attempted := Some (Z.of_nat (length attendees));
                    results := st_results st |};
             final_world := st_world st;
             events := st_trace st |}
      end
  end.

(** *** The four routes side by side *)

Inductive Action : Type := Retweet | Like | Comment | Quote.

Definition batch_item (a : Action) (twitter_client : TwitterClient W)
    (message : option pystr) : pydict -> loop_state -> loop_state :=
  match a with
  | Retweet => retweet_item twitter_client
  | Like => like_item twitter_client
  | Comment => comment_item twitter_client message
  | Quote => quote_item twitter_client message
  end.

Definition batch_loop (a : Action) (twitter_client : TwitterClient W)
    (message : option pystr) : list pydict -> loop_state -> loop_state :=
  match a with
  | Retweet => retweet_loop twitter_client
  | Like => like_loop twitter_client
  | Comment => comment_loop twitter_client message
  | Quote => quote_loop twitter_client message
  end.

Definition batch_handler (a : Action)
    : TwitterActionRequest.t -> W -> run BatchResponse W :=
  match a with
  | Retweet => retweet_posts
  | Like => like_posts
  | Comment => post_comments
  | Quote => post_quote_tweets
  end.

End Handlers.

(** ** Vocabulary of the properties *)

(** The pacing constants of the four loops. *)
Definition pacing_delay (a : Action) : Z :=
  match a with
  | Retweet | Like => 2
  | Comment | Quote => 3
  end.

Definition outcome_username (o : ActionOutcome) : pyval :=
  match o with
  | failed u _ | retweeted u _ _ | liked u _ _
  | commented u _ _ _ _ | quoted u _ _ _ _ => u
  end.

(** The post identifier an outcome carries, if any. *)
Definition outcome_tweet_id (o : ActionOutcome) : option pystr :=
  match o with
  | failed _ _ => None
  | retweeted _ t _ | liked _ t _ | commented _ t _ _ _
  | quoted _ t _ _ _ => Some t
  end.

Definition is_failed (o : ActionOutcome) : bool :=
  match o with
  | failed _ _ => true
  | _ => false
  end.

Definition attendee_username (attendee : pydict) : pyval :=
  dict_get attendee (lit "username") (VStr []).

Definition attendee_post_link (attendee : pydict) : pyval :=
  dict_get attendee (lit "post_link") (VStr []).

(** [o] is an outcome of [attendee]: it echoes the attendee's username,
    and an identifier it carries is the one extracted from the
    attendee's post link. *)
Definition answers (rt : PyRuntime) (attendee : pydict) (o : ActionOutcome)
    : Prop :=
  outcome_username o = attendee_username attendee
  /\ forall t, outcome_tweet_id o = Some t ->
       extract_tweet_id rt (attendee_post_link attendee) = Some t.

(** The client pre-check of route [a], made from world [w]: the client
    is built and reports itself operational, or for the quote route has
    its OAuth 1.1 handle. *)
Definition passes_pre_check {W} (svc : Services W) (a : Action) (w : W)
    : bool :=
  match TwitterClient_new svc w with
  | (Returns tc, w1) =>
      match a with
      | Quote => match api tc with Some _ => true | None => false end
      | _ =>
          match is_operational tc w1 with
          | (Returns true, _) => true
          | _ => false
          end
      end
  | (Raises _, _) => false
  end.

(** How a call ended, its value forgotten. *)
Definition ended {A : Type} (r : call_result A) : call_result unit :=
  match r with
  | Returns _ => Returns tt
  | Raises e => Raises e
  end.

(** The external action call route [a] makes for [attendee] in world
    [w]: the call, how it ended, and the world it left.  [None] when the
    item never gets that far. *)
Definition action_call {W} (rt : PyRuntime) (a : Action)
    (tc : TwitterClient W) (message : option pystr) (attendee : pydict)
    (w : W) : option (event * call_result unit * W) :=
  if truthy (attendee_post_link attendee) then
    match extract_tweet_id rt (attendee_post_link attendee) with
    | Some tweet_id =>
        match a with
        | Retweet =>
            let (r, w') := retweet_tweet tc tweet_id w in
            Some (CallRetweet tweet_id, ended r, w')
        | Like =>
            let (r, w') := like_tweet tc tweet_id w in
            Some (CallLike tweet_id, ended r, w')
        | Comment =>
            match attendee_username attendee with
            | VStr u =>
                let text :=
                  comment_text_of (replace_char 64%N u)
                    (message_or message default_comment) in
                let (r, w') := post_tweet tc text tweet_id w in
                Some (CallPostTweet text tweet_id, ended r, w')
            | _ => None
            end
        | Quote =>
            match attendee_username attendee, api tc with
            | VStr u, Some twitter_client_api =>
                let text :=
                  quote_text_of (message_or message default_quote)
                    (replace_char 64%N u) in
                let (r, w') := update_status twitter_client_api text w in
                Some (CallUpdateStatus text, ended r, w')
            | _, _ => None
            end
        end
    | None => None
    end
  else None.

(** Group 1 is never an empty string, and holds digits only when every
    capturing atom is a [\d+]. *)
Definition group_ok (rt : PyRuntime) (g : option pystr) : Prop :=
  match g with
  | None => True
  | Some t => t <> [] /\ Forall (fun x => Re.in_cls rt Re.Digit x = true) t
  end.

Definition captures_digits (atm : Re.atom) : Prop :=
  match atm with
  | Re.Plus k true => k = Re.Digit
  | _ => True
  end.


(** The simplified extractor: only [r'status/(\d+)'] is searched. *)
Definition extract_status_only (rt : PyRuntime) (post_link : pyval)
    : option pystr :=
  match post_link with
  | VStr s =>
      match Re.search rt pattern_status s with
      | Some g => g
      | None => None
      end
  | _ => None
  end.



(** ** A scripted client for concrete runs

    The world counts the calls made.  Post ["2"] makes retweet, like and
    comment raise, post ["3"] makes them report failure, any other post
    works; the OAuth 1.1 handle raises on the second call overall. *)

Definition ascii_runtime : PyRuntime :=
  {| unicode_digit := fun _ => false;
     unicode_word := fun _ => false;
     repr := fun _ => lit "<value>" |}.

Definition scripted_action (tweet_id : pystr) (w : nat)
    : call_result bool * nat :=
  match tweet_id with
  | [50%N] => (Raises (lit "429 Too Many Requests"), S w)
  | [51%N] => (Returns false, S w)
  | _ => (Returns true, S w)
  end.

Definition scripted_post (text reply_to : pystr) (w : nat)
    : call_result pydict * nat :=
  match reply_to with
  | [50%N] => (Raises (lit "429 Too Many Requests"), S w)
  | [51%N] =>
      (Returns {[ lit "success" := VBool false;
                  lit "error" := VStr (lit "Forbidden") ]}, S w)
  | _ =>
      (Returns {[ lit "success" := VBool true;
                  lit "tweet_id" := VStr (lit "900") ]}, S w)
  end.

Definition scripted_api : Api nat :=
  {| update_status := fun status w =>
       match w with
       | 1%nat => (Raises (lit "403 Forbidden"), S w)
       | _ => (Returns {| id := VInt 901 |}, S w)
       end |}.

Definition scripted_client (operational has_api : bool)
    : TwitterClient nat :=
  {| api := if has_api then Some scripted_api else None;
     is_operational := fun w => (Returns operational, S w);
     retweet_tweet := scripted_action;
     like_tweet := scripted_action;
     post_tweet := scripted_post |}.

Definition scripted_services (operational has_api : bool) : Services nat :=
  {| TwitterClient_new := fun w =>
       (Returns (scripted_client operational has_api), w);
     event_engine_discover_events := fun _ _ _ _ _ w => (Returns [], S w);
     attendee_engine_discover_attendees := fun _ _ _ w => (Returns [], S w) |}.

Definition attendee_of (username post_link : string) : pydict :=
  {[ lit "username" := VStr (lit username);
     lit "post_link" := VStr (lit post_link) ]}.

(** Three attendees; the second one's post makes the action raise. *)
Definition three_attendees : list pydict :=
  [ attendee_of "@alice" "https://twitter.com/alice/status/1";
    attendee_of "@bob" "https://twitter.com/bob/status/2";
    attendee_of "@carol" "https://x.com/carol/status/4" ].

Definition request_of (attendees : list pydict) (message : option pystr)
    : TwitterActionRequest.t :=
  {| TwitterActionRequest.attendees := attendees;
     TwitterActionRequest.message := message |}.

(** ** The fallback classes (app.py 28-54)

    What the module defines in place of the engines and the client when
    the imports fail.  Their only effect is a [print]. *)



(** ** health_check (app.py 132-140) *)

Record HealthResponse : Type := {
  status : pystr;
  twitter_search_ready : bool;
  twitter_actions_ready : bool;
  features : list pystr
}.

(** The handler has no [try]: a fault of the client leaves it as raised. *)
Definition health_check {W : Type} (svc : Services W) (w : W)
    : run (call_result HealthResponse) W :=
  match TwitterClient_new svc w with
  | (Raises e, w) =>
      {| response := Raises e; final_world := w; events := [] |}
  | (Returns twitter_client, w) =>
      match is_operational twitter_client w with
      | (Raises e, w) =>
          {| response := Raises e; final_world := w;
             events := [CallIsOperational] |}
      | (Returns ready, w) =>
          {| response :=
               Returns
                 {| status := lit "healthy";
                    twitter_search_ready := ready;
                    twitter_actions_ready :=
                      match api twitter_client with
                      | Some _ => true
                      | None => false
                      end;
                    features :=
                      [lit "event_discovery"; lit "attendee_discovery";
                       lit "twitter_actions"] |};
             final_world := w;
             events := [CallIsOperational] |}
      end
  end.

(** ** More vocabulary *)

(** The events that are external action calls. *)
Definition is_action_call (ev : event) : bool :=
  match ev with
  | CallRetweet _ | CallLike _ | CallPostTweet _ _ | CallUpdateStatus _ => true
  | _ => false
  end.

Definition is_sleep (ev : event) : bool :=
  match ev with
  | Sleep _ => true
  | _ => false
  end.

(** The action call route [a] makes for [attendee], if it makes one:
    what is called and with which arguments does not depend on the
    world. *)
Definition dispatch_event {W : Type} (rt : PyRuntime) (a : Action)
    (tc : TwitterClient W) (message : option pystr) (attendee : pydict)
    : option event :=
  if truthy (attendee_post_link attendee) then
    match extract_tweet_id rt (attendee_post_link attendee) with
    | Some tweet_id =>
        match a with
        | Retweet => Some (CallRetweet tweet_id)
        | Like => Some (CallLike tweet_id)
        | Comment =>
            match attendee_username attendee with
            | VStr u =>
                Some (CallPostTweet
                        (comment_text_of (replace_char 64%N u)
                           (message_or message default_comment))
                        tweet_id)
            | _ => None
            end
        | Quote =>
            match attendee_username attendee, api tc with
            | VStr u, Some _ =>
                Some (CallUpdateStatus
                        (quote_text_of (message_or message default_quote)
                           (replace_char 64%N u)))
            | _, _ => None
            end
        end
    | None => None
    end
  else None.

(** The string does not go on with a character of [\d]. *)
Definition no_digit_ahead (rt : PyRuntime) (s : pystr) : Prop :=
  match s with
  | [] => True
  | x :: _ => Re.in_cls rt Re.Digit x = false
  end.

(** ["status/"] followed by a decimal digit occurs in [s] after [pre]. *)
Definition status_digit_at (rt : PyRuntime) (s pre : pystr) : Prop :=
  exists d rest,
    s = pre ++ lit "status/" ++ d :: rest /\ Re.in_cls rt Re.Digit d = true.

(** The outcomes of a results list that are not [failed]. *)
Definition succeeded (outs : list ActionOutcome) : list ActionOutcome :=
  List.filter (fun o => negb (is_failed o)) outs.

(** What one pass through a loop body left behind: the outcome, the
    events, and whether the success counter went up. *)
Record pass : Type := {
  pass_outcome : ActionOutcome;
  pass_events : list event;
  pass_counted : bool
}.

Definition pass_ok {W : Type} (rt : PyRuntime) (a : Action)
    (tc : TwitterClient W) (message : option pystr) (attendee : pydict)
    (p : pass) : Prop :=
  answers rt attendee (pass_outcome p)
  /\ (is_failed (pass_outcome p) = false -> pass_counted p = true)
  /\ (a <> Comment -> pass_counted p = true ->
      is_failed (pass_outcome p) = false)
  /\ match dispatch_event rt a tc message attendee with
     | None =>
         pass_events p = [] /\ pass_counted p = false
         /\ is_failed (pass_outcome p) = true
     | Some call =>
         (pass_events p = [call] /\ is_failed (pass_outcome p) = true
          /\ (a <> Comment -> pass_counted p = false))
         \/ (pass_events p = [call; Sleep (pacing_delay a)]
             /\ (a = Quote -> pass_counted p = true))
     end.

Definition counted (ps : list pass) : Z :=
  Z.of_nat (length (List.filter pass_counted ps)).

(** ** A client whose comment results carry no identifier *)

Definition terse_client : TwitterClient nat :=
  {| api := None;
     is_operational := fun w => (Returns true, S w);
     retweet_tweet := fun _ w => (Returns true, S w);
     like_tweet := fun _ w => (Returns true, S w);
     post_tweet := fun _ _ w =>
       (Returns {[ lit "success" := VBool true ]}, S w) |}.

Definition terse_services : Services nat :=
  {| TwitterClient_new := fun w => (Returns terse_client, w);
     event_engine_discover_events := fun _ _ _ _ _ w => (Returns [], S w);
     attendee_engine_discover_attendees := fun _ _ _ w => (Returns [], S w) |}.




(** ** The matcher *)

Section MatcherFacts.
Context (rt : PyRuntime).

(** What a successful greedy [+] consumed and what it passed on. *)
Lemma plus_greedy_Some {R} c (k : pystr -> pystr -> option R) taken s r :
  Re.plus_greedy rt c k taken s = Some r ->
  exists more rest,
    more <> [] /\ s = more ++ rest
    /\ Forall (fun x => Re.in_cls rt c x = true) more
    /\ k (taken ++ more) rest = Some r.
Proof.
  revert taken. induction s as [|x s IH]; intros taken; simpl; [done|].
  destruct (Re.in_cls rt c x) eqn:Hx; [|done].
  destruct (Re.plus_greedy rt c k (taken ++ [x]) s) eqn:Hg.
  - intros [= ->]. destruct (IH _ Hg) as (more & rest & _ & -> & Hall & Hk).
    exists (x :: more), rest. rewrite <- app_assoc in Hk.
    repeat split; [done | by constructor | done].
  - intros Hk. exists [x], s. repeat split; [done | by repeat constructor | done].
Qed.

(** Failure of a greedy [+] only depends on where the continuation fails. *)
Lemma plus_greedy_None {R} c (k k' : pystr -> pystr -> option R) taken s :
  (forall t rest, k t rest = None -> k' t rest = None) ->
  Re.plus_greedy rt c k taken s = None ->
  Re.plus_greedy rt c k' taken s = None.
Proof.
  intros Hk. revert taken. induction s as [|x s IH]; intros taken; simpl; [done|].
  destruct (Re.in_cls rt c x); [|done].
  destruct (Re.plus_greedy rt c k (taken ++ [x]) s) eqn:Hg; [done|].
  intros Hnone. rewrite (IH _ Hg). by apply Hk.
Qed.

(** Whether a pattern matches does not depend on the group so far. *)
Lemma match_here_None p g g' s :
  Re.match_here rt p g s = None -> Re.match_here rt p g' s = None.
Proof.
  revert g g' s. induction p as [|[c|c captured] p IH]; intros g g' s; simpl.
  - done.
  - destruct s as [|x s]; [done|]. destruct (x =? c)%N; [apply IH | done].
  - apply plus_greedy_None. intros t rest. apply IH.
Qed.

(** A match of [pre ++ p] contains a match of [p] further right. *)
Lemma match_here_app pre p g s r :
  Re.match_here rt (pre ++ p) g s = Some r ->
  exists g' s', s' `suffix_of` s /\ Re.match_here rt p g' s' = Some r.
Proof.
  revert g s. induction pre as [|[c|c captured] pre IH]; intros g s; simpl.
  - intros H. by exists g, s.
  - destruct s as [|x s]; [done|]. destruct (x =? c)%N; [|done].
    intros H. destruct (IH _ _ H) as (g' & s' & Hs & Hm).
    exists g', s'. split; [by apply suffix_cons_r | done].
  - intros H. apply plus_greedy_Some in H as (more & rest & _ & -> & _ & H).
    destruct (IH _ _ H) as (g' & s' & Hs & Hm).
    exists g', s'. split; [by apply suffix_app_r | done].
Qed.

Lemma search_None p s :
  Re.search rt p s = None ->
  forall s', s' `suffix_of` s -> Re.match_here rt p None s' = None.
Proof.
  induction s as [|x s IH]; simpl.
  - destruct (Re.match_here rt p None []) eqn:H; [done|].
    intros _ s' Hs. by apply suffix_nil_inv in Hs as ->.
  - destruct (Re.match_here rt p None (x :: s)) eqn:H; [done|].
    intros Hsearch s' Hs. destruct s' as [|y s'].
    + apply IH; [done | apply suffix_nil].
    + apply suffix_cons_inv in Hs as [[= -> ->]|Hs]; [done | by apply IH].
Qed.

Lemma search_Some p s r :
  Re.search rt p s = Some r ->
  exists s', s' `suffix_of` s /\ Re.match_here rt p None s' = Some r.
Proof.
  induction s as [|x s IH]; simpl.
  - destruct (Re.match_here rt p None []) eqn:H; [|done].
    intros [= ->]. by exists [].
  - destruct (Re.match_here rt p None (x :: s)) eqn:H.
    + intros [= ->]. by exists (x :: s).
    + intros Hs. destruct (IH Hs) as (s' & Hsuf & Hm).
      exists s'. split; [by apply suffix_cons_r | done].
Qed.

(** A pattern that ends in [p] finds nothing where [p] finds nothing. *)
Lemma search_app_None pre p s :
  Re.search rt p s = None -> Re.search rt (pre ++ p) s = None.
Proof.
  intros Hnone. destruct (Re.search rt (pre ++ p) s) as [r|] eqn:Hs; [|done].
  apply search_Some in Hs as (s1 & Hs1 & Hm).
  apply match_here_app in Hm as (g' & s2 & Hs2 & Hm).
  assert (Re.match_here rt p None s2 = None) as Hn.
  { apply (search_None _ _ Hnone). by etrans. }
  apply (match_here_None _ _ g') in Hn. congruence.
Qed.

Lemma match_here_group p g s r :
  Forall captures_digits p -> group_ok rt g ->
  Re.match_here rt p g s = Some r -> group_ok rt r.
Proof.
  revert g s. induction p as [|[c|c captured] p IH]; intros g s Hp Hg; simpl.
  - by intros [= <-].
  - destruct s as [|x s]; [done|]. destruct (x =? c)%N; [|done].
    apply IH; [by inversion Hp | done].
  - intros H. apply plus_greedy_Some in H as (more & rest & Hne & -> & Hall & H).
    inversion Hp as [|? ? Hat Hp']; subst.
    eapply IH; [done | | exact H].
    destruct captured; [|done]. simpl in Hat. subst c. by split.
Qed.

Lemma search_group p s r :
  Forall captures_digits p -> Re.search rt p s = Some r -> group_ok rt r.
Proof.
  intros Hp Hs. apply search_Some in Hs as (s' & _ & Hm).
  exact (match_here_group p None s' r Hp I Hm).
Qed.

Lemma patterns_capture_digits : Forall (Forall captures_digits) patterns.
Proof. repeat constructor. Qed.

Lemma first_group_ok ps s t :
  Forall (Forall captures_digits) ps ->
  first_group rt ps s = Some t -> group_ok rt (Some t).
Proof.
  induction ps as [|p ps IH]; simpl; [done|].
  intros Hps. inversion Hps as [|? ? Hp Hps']; subst.
  destruct (Re.search rt p s) as [g|] eqn:Hs; [|by apply IH].
  intros ->. exact (search_group p s (Some t) Hp Hs).
Qed.

(** An extracted identifier is a non-empty string of decimal digits. *)
Lemma extract_tweet_id_digits post_link t :
  extract_tweet_id rt post_link = Some t ->
  t <> [] /\ Forall (fun x => Re.in_cls rt Re.Digit x = true) t.
Proof.
  unfold extract_tweet_id, extract_tweet_id_body.
  destruct post_link; try done.
  apply first_group_ok, patterns_capture_digits.
Qed.

End MatcherFacts.

(** ** The identifier extractor *)

(** C8: the extractor finds ["12345"] and ["987"] in the two sample
    links and nothing in a link without a status segment; on every
    value, string or not, it returns: a fault of the body reads as
    not-found, and a found identifier is a non-empty string of digits. *)
Theorem extract_tweet_id_examples_and_total (rt : PyRuntime) :
  extract_tweet_id rt (VStr (lit "https://twitter.com/user/status/12345"))
    = Some (lit "12345")
  /\ extract_tweet_id rt (VStr (lit "https://x.com/user/status/987"))
     = Some (lit "987")
  /\ extract_tweet_id rt (VStr (lit "https://example.com/no-status-here"))
     = None
  /\ (forall post_link : pyval,
        match extract_tweet_id_body rt post_link with
        | inl found => extract_tweet_id rt post_link = found
        | inr _ => extract_tweet_id rt post_link = None
        end)
  /\ (forall post_link : pyval,
        match extract_tweet_id rt post_link with
        | None => True
        | Some t =>
            t <> [] /\ Forall (fun x => Re.in_cls rt Re.Digit x = true) t
        end).
Proof.
  split; [by vm_compute|]. split; [by vm_compute|]. split; [by vm_compute|].
  split.
  - intros post_link. unfold extract_tweet_id.
    by destruct (extract_tweet_id_body rt post_link).
  - intros post_link.
    destruct (extract_tweet_id rt post_link) as [t|] eqn:H; [|done].
    by apply (extract_tweet_id_digits rt post_link).
Qed.

(** C10: on every input the extractor agrees with the one that searches
    [status/(\d+)] alone; the three longer patterns never decide. *)
Theorem extract_tweet_id_status_only (rt : PyRuntime) (post_link : pyval) :
  extract_tweet_id rt post_link = extract_status_only rt post_link.
Proof.
  unfold extract_tweet_id, extract_tweet_id_body, extract_status_only.
  destruct post_link as [| | | |s| |]; try reflexivity.
  unfold patterns, first_group.
  destruct (Re.search rt pattern_status s) as [g|] eqn:Hs; [reflexivity|].
  change pattern_twitter_user with
    ((Re.chars "twitter.com/" ++ [Re.Plus Re.Word false] ++ Re.chars "/")
       ++ pattern_status).
  change pattern_twitter with (Re.chars "twitter.com/" ++ pattern_status).
  change pattern_x_user with
    ((Re.chars "x.com/" ++ [Re.Plus Re.Word false] ++ Re.chars "/")
       ++ pattern_status).
  by rewrite !(search_app_None rt _ _ _ Hs).
Qed.

(** ** One pass through a loop body *)

Section ItemFacts.
Context {W : Type} (rt : PyRuntime).

(** Every way through a loop body, read off the external call it makes. *)
Lemma batch_item_shape (a : Action) (tc : TwitterClient W)
    (message : option pystr) (attendee : pydict) (st : loop_state) :
  let u := attendee_username attendee in
  let st' := batch_item rt a tc message attendee st in
  match action_call rt a tc message attendee (st_world st) with
  | None => exists err, st' = results_append (failed u err) st
  | Some (call, Raises e, w') => st' = except_Exception u e (called call w' st)
  | Some (call, Returns _, w') =>
      (exists o,
         is_failed o = false /\ answers rt attendee o
         /\ st' = time_sleep (pacing_delay a)
                    (results_append o (count_success (called call w' st))))
      \/ (exists err,
            a <> Quote
            /\ st' = time_sleep (pacing_delay a)
                       (results_append (failed u err) (called call w' st)))
      \/ (exists e,
            a = Comment
            /\ (st' = except_Exception u e (called call w' st)
                \/ st' = except_Exception u e
                           (count_success (called call w' st))))
  end.
Proof.
  intros u st'. subst u st'.
  unfold action_call, attendee_username, attendee_post_link.
  destruct (truthy (dict_get attendee (lit "post_link") (VStr []))) eqn:Hl.
  2:{ destruct a; simpl; unfold retweet_item, like_item, comment_item, quote_item; rewrite Hl; simpl; eauto. }
  destruct (extract_tweet_id rt (dict_get attendee (lit "post_link") (VStr [])))
    as [[|c s]|] eqn:Hx.
  { by apply extract_tweet_id_digits in Hx as [? _]. }
  2:{ destruct a; simpl; unfold retweet_item, like_item, comment_item, quote_item; rewrite Hl, Hx; simpl; eauto. }
  destruct a; simpl; unfold retweet_item, like_item, comment_item, quote_item; rewrite Hl, Hx; simpl.
  - destruct (retweet_tweet tc (c :: s) (st_world st)) as [[[]|e] w']; simpl.
    + left. eexists. split; [|split; [|reflexivity]]; [done|].
      split; [done | by intros t [= <-]].
    + right; left. eexists. by split.
    + done.
  - destruct (like_tweet tc (c :: s) (st_world st)) as [[[]|e] w']; simpl.
    + left. eexists. split; [|split; [|reflexivity]]; [done|].
      split; [done | by intros t [= <-]].
    + right; left. eexists. by split.
    + done.
  - destruct (dict_get attendee (lit "username") (VStr [])) as [| | | |name| |]
      eqn:Hu; simpl; eauto.
    destruct (post_tweet tc _ (c :: s) (st_world st)) as [[result|e] w'];
      simpl; [|done].
    destruct (result !! lit "success") as [success|].
    2:{ right; right. eexists. split; [done | by left]. }
    destruct (truthy success).
    2:{ right; left. eexists. by split. }
    destruct (result !! lit "tweet_id") as [comment_id|].
    2:{ right; right. eexists. split; [done | by right]. }
    left. eexists. split; [|split; [|reflexivity]]; [done|].
    split; [by rewrite <- Hu | by intros t [= <-]].
  - destruct (dict_get attendee (lit "username") (VStr [])) as [| | | |name| |]
      eqn:Hu; simpl; eauto.
    destruct (api tc) as [twitter_client_api|]; simpl; eauto.
    destruct (update_status twitter_client_api _ (st_world st))
      as [[tweet|e] w']; simpl; [|done].
    left. eexists. split; [|split; [|reflexivity]]; [done|].
    split; [by rewrite <- Hu | by intros t [= <-]].
Qed.

End ItemFacts.

(** ** The loops *)

Section LoopFacts.
Context {W : Type} (rt : PyRuntime).
Implicit Types (tc : TwitterClient W) (st : @loop_state W).

Lemma batch_loop_fold a tc message attendees st :
  batch_loop rt a tc message attendees st
  = fold_left (fun st x => batch_item rt a tc message x st) attendees st.
Proof. by destruct a. Qed.

Lemma batch_loop_cons a tc message attendee attendees st :
  batch_loop rt a tc message (attendee :: attendees) st
  = batch_loop rt a tc message attendees
      (batch_item rt a tc message attendee st).
Proof. by rewrite !batch_loop_fold. Qed.

Lemma batch_loop_app a tc message l1 l2 st :
  batch_loop rt a tc message (l1 ++ l2) st
  = batch_loop rt a tc message l2 (batch_loop rt a tc message l1 st).
Proof. rewrite !batch_loop_fold. apply fold_left_app. Qed.



End LoopFacts.

(** ** Batch reports *)

(** C1: whenever a batch handler returns a report, its success count and
    failed count add up to the number of attendee records. *)
Theorem counts_add_up {W : Type} (rt : PyRuntime) (svc : Services W)
    (a : Action) (request : TwitterActionRequest.t) (w : W)
    (r : BatchActionReport) :
  response (batch_handler rt svc a request w) = report r ->
  success_count r + failed_count r
  = Z.of_nat (length (TwitterActionRequest.attendees request)).
Proof.
  destruct a; simpl;
    unfold retweet_posts, like_posts, post_comments, post_quote_tweets;
    repeat case_match; simpl; intros [= <-]; simpl; lia.
Qed.

Lemma counts_add_up_witness :
  exists r,
    response (batch_handler ascii_runtime (scripted_services true true)
                Retweet (request_of three_attendees None) 0%nat) = report r
    /\ success_count r + failed_count r = 3.
Proof.
  eexists. split; [reflexivity|].
  apply (counts_add_up ascii_runtime (scripted_services true true) Retweet
           (request_of three_attendees None) 0%nat).
  reflexivity.
Defined.



(** ** Faults of the action call *)



(** The fault on item 2 of 3, seen from the retweet route: items 1 and 3
    are retweeted and reported around the failed item 2. *)
Example fault_on_item_2_of_3 :
  response (retweet_posts ascii_runtime (scripted_services true true)
              (request_of three_attendees None) 0%nat)
  = report
      {| count_key := lit "retweeted_count";
         success_count := 2;
         failed_count := 1;
         total_attempted := None;
         results :=
           [ retweeted (VStr (lit "@alice")) (lit "1")
               (lit "Successfully retweeted post from @alice");
             failed (VStr (lit "@bob")) (VStr (lit "429 Too Many Requests"));
             retweeted (VStr (lit "@carol")) (lit "4")
               (lit "Successfully retweeted post from @carol") ] |}.
Proof. reflexivity. Qed.

(** ** Pre-checks *)

(** C4: when the client reports itself non-operational, the retweet, like
    and comment routes answer with the single top-level failure; the only
    thing done to the outside is the operability check itself, so no
    action call is made and no outcome is produced. *)
Theorem non_operational_short_circuits {W : Type} (rt : PyRuntime)
    (svc : Services W) (a : Action) (request : TwitterActionRequest.t)
    (w w1 w2 : W) (tc : TwitterClient W) :
  a <> Quote ->
  TwitterClient_new svc w = (Returns tc, w1) ->
  is_operational tc w1 = (Returns false, w2) ->
  batch_handler rt svc a request w
  = {| response := top_level_failure (lit "Twitter client not operational");
       final_world := w2;
       events := [CallIsOperational] |}.
Proof.
  intros Ha Hnew Hop.
  destruct a; [| | |done]; simpl;
    unfold retweet_posts, like_posts, post_comments; by rewrite Hnew, Hop.
Qed.

Lemma non_operational_short_circuits_witness :
  batch_handler ascii_runtime (scripted_services false true) Like
    (request_of three_attendees None) 0%nat
  = {| response := top_level_failure (lit "Twitter client not operational");
       final_world := 1%nat;
       events := [CallIsOperational] |}.
Proof.
  apply (non_operational_short_circuits ascii_runtime
           (scripted_services false true) Like
           (request_of three_attendees None) 0%nat 0%nat 1%nat
           (scripted_client false true)); [discriminate | reflexivity..].
Defined.

(** C5: the quote route looks at the OAuth 1.1 handle only: without it
    the answer is the single "not configured" failure and nothing is
    done to the outside, whatever the operability check would say. *)
Theorem quote_requires_api {W : Type} (rt : PyRuntime) (svc : Services W)
    (request : TwitterActionRequest.t) (w w1 : W) (tc : TwitterClient W) :
  TwitterClient_new svc w = (Returns tc, w1) ->
  api tc = None ->
  post_quote_tweets rt svc request w
  = {| response :=
         top_level_failure
           (lit "Twitter OAuth 1.1 not configured for quote tweets");
       final_world := w1;
       events := [] |}.
Proof.
  intros Hnew Hapi. unfold post_quote_tweets. by rewrite Hnew, Hapi.
Qed.

Lemma quote_requires_api_witness :
  is_operational (scripted_client true false) 0%nat = (Returns true, 1%nat)
  /\ post_quote_tweets ascii_runtime (scripted_services true false)
       (request_of three_attendees None) 0%nat
     = {| response :=
            top_level_failure
              (lit "Twitter OAuth 1.1 not configured for quote tweets");
          final_world := 0%nat;
          events := [] |}.
Proof.
  split; [reflexivity|].
  apply (quote_requires_api ascii_runtime (scripted_services true false)
           (request_of three_attendees None) 0%nat 0%nat
           (scripted_client true false)); reflexivity.
Defined.

(** ** Pacing *)





(** ** Comment text *)





(** ** Discovery limits *)


(** The three sample limits, seen from the events route. *)
Example discover_events_sample_limits :
  List.map
    (fun m =>
       let r :=
         discover_events (scripted_services true true)
           {| EventDiscoveryRequest.location := lit "Berlin";
              EventDiscoveryRequest.start_date := lit "2025-01-01";
              EventDiscoveryRequest.end_date := lit "2025-01-31";
              EventDiscoveryRequest.categories := [];
              EventDiscoveryRequest.max_results := m |} 0%nat in
       (response r, events r))
    [150; 0; 42]
  = List.map
      (fun m =>
         (discovered [] 0 m,
          [CallDiscoverEvents (lit "Berlin") (lit "2025-01-01")
             (lit "2025-01-31") [] m]))
      [100; 1; 42].
Proof. reflexivity. Qed.

(** Close a goal with [t] when the two types agree by evaluation. *)
Ltac vm_exact t := match goal with |- ?G => exact (t <: G) end.

(** ** Passes and their summaries *)

Section PassFacts.
Context {W : Type} (rt : PyRuntime).
Implicit Types (tc : TwitterClient W) (st : @loop_state W).

(** The call [action_call] reports is the one [dispatch_event] names. *)
Lemma action_call_dispatch_event a tc message attendee (w : W) :
  match dispatch_event rt a tc message attendee with
  | None => action_call rt a tc message attendee w = None
  | Some call =>
      exists r w', action_call rt a tc message attendee w = Some (call, r, w')
  end.
Proof.
  unfold dispatch_event, action_call.
  destruct (truthy (attendee_post_link attendee)); [|done].
  destruct (extract_tweet_id rt (attendee_post_link attendee)); [|done].
  destruct a.
  - destruct (retweet_tweet tc l w). eauto.
  - destruct (like_tweet tc l w). eauto.
  - destruct (attendee_username attendee); try done.
    destruct (post_tweet tc _ l w). eauto.
  - destruct (attendee_username attendee); try done.
    destruct (api tc); [|done].
    destruct (update_status _ _ w). eauto.
Qed.

Lemma batch_item_pass a tc message attendee st :
  exists p,
    pass_ok rt a tc message attendee p
    /\ st_results (batch_item rt a tc message attendee st)
       = st_results st ++ [pass_outcome p]
    /\ st_trace (batch_item rt a tc message attendee st)
       = st_trace st ++ pass_events p
    /\ st_successful (batch_item rt a tc message attendee st)
       = st_successful st + (if pass_counted p then 1 else 0).
Proof.
  pose proof (batch_item_shape rt a tc message attendee st) as H.
  pose proof (action_call_dispatch_event a tc message attendee (st_world st))
    as Hev.
  simpl in H. unfold pass_ok.
  assert (forall err,
            answers rt attendee (failed (attendee_username attendee) err))
    as Hfailed by (by split).
  destruct (action_call rt a tc message attendee (st_world st))
    as [[[call [[]|e]] w']|].
  - destruct (dispatch_event rt a tc message attendee) as [call'|];
      [|done]. destruct Hev as (r & w'' & [= <- _ _]).
    destruct H as [(o & Ho & Hans & ->)|[(err & Ha & ->)|(e & -> & [-> | ->])]].
    + exists {| pass_outcome := o; pass_events := [call; Sleep (pacing_delay a)];
                pass_counted := true |}.
      simpl. rewrite <- app_assoc. split_and!; try done; try lia.
      right. by split.
    + exists {| pass_outcome := failed (attendee_username attendee) err;
                pass_events := [call; Sleep (pacing_delay a)];
                pass_counted := false |}.
      simpl. rewrite <- app_assoc. split_and!; try done; try lia.
      right. by split.
    + exists {| pass_outcome := failed (attendee_username attendee) (VStr e);
                pass_events := [call]; pass_counted := false |}.
      simpl. split_and!; try done; try lia. left. by split_and!.
    + exists {| pass_outcome := failed (attendee_username attendee) (VStr e);
                pass_events := [call]; pass_counted := true |}.
      simpl. split_and!; try done; try lia. left. by split_and!.
  - destruct (dispatch_event rt a tc message attendee) as [call'|];
      [|done]. destruct Hev as (r & w'' & [= <- _ _]).
    rewrite H.
    exists {| pass_outcome := failed (attendee_username attendee) (VStr e);
              pass_events := [call]; pass_counted := false |}.
    simpl. split_and!; try done; try lia. left. by split_and!.
  - destruct (dispatch_event rt a tc message attendee) as [call'|].
    { by destruct Hev as (r & w'' & ?). }
    destruct H as (err & ->).
    exists {| pass_outcome := failed (attendee_username attendee) err;
              pass_events := []; pass_counted := false |}.
    simpl. rewrite app_nil_r. split_and!; try done; lia.
Qed.

Lemma counted_cons p ps :
  counted (p :: ps) = (if pass_counted p then 1 else 0) + counted ps.
Proof. unfold counted. simpl. destruct (pass_counted p); simpl; lia. Qed.

Lemma batch_loop_passes a tc message attendees st :
  exists ps,
    Forall2 (pass_ok rt a tc message) attendees ps
    /\ st_results (batch_loop rt a tc message attendees st)
       = st_results st ++ List.map pass_outcome ps
    /\ st_trace (batch_loop rt a tc message attendees st)
       = st_trace st ++ concat (List.map pass_events ps)
    /\ st_successful (batch_loop rt a tc message attendees st)
       = st_successful st + counted ps.
Proof.
  revert st. induction attendees as [|attendee attendees IH]; intros st.
  - exists []. rewrite batch_loop_fold. simpl. rewrite !app_nil_r.
    split_and!; [constructor | done | done | unfold counted; simpl; lia].
  - rewrite batch_loop_cons.
    destruct (batch_item_pass a tc message attendee st)
      as (p & Hp & Hr & Ht & Hc).
    destruct (IH (batch_item rt a tc message attendee st))
      as (ps & Hps & Hrs & Hts & Hcs).
    exists (p :: ps). rewrite Hrs, Hts, Hcs, Hr, Ht, Hc, counted_cons.
    simpl. rewrite <- !app_assoc.
    split_and!; [by constructor | done | done | lia].
Qed.

End PassFacts.

(** A batch handler that got past its pre-check, by its passes. *)
Lemma batch_handler_passes {W : Type} (rt : PyRuntime) (svc : Services W)
    (a : Action) (request : TwitterActionRequest.t) (w : W) :
  passes_pre_check svc a w = true ->
  exists tc w1 ps r,
    TwitterClient_new svc w = (Returns tc, w1)
    /\ Forall2 (pass_ok rt a tc (TwitterActionRequest.message request))
         (TwitterActionRequest.attendees request) ps
    /\ response (batch_handler rt svc a request w) = report r
    /\ results r = List.map pass_outcome ps
    /\ success_count r = counted ps
    /\ failed_count r
       = Z.of_nat (length (TwitterActionRequest.attendees request))
         - counted ps
    /\ events (batch_handler rt svc a request w)
       = match a with Quote => [] | _ => [CallIsOperational] end
           ++ concat (List.map pass_events ps).
Proof.
  unfold passes_pre_check.
  destruct (TwitterClient_new svc w) as [[tc|e] w1] eqn:Hnew; [|done].
  intros Hpre. exists tc, w1.
  assert (exists w2,
            batch_handler rt svc a request w
            = let st :=
                batch_loop rt a tc (TwitterActionRequest.message request)
                  (TwitterActionRequest.attendees request)
                  (loop_init w2
                     match a with Quote => [] | _ => [CallIsOperational] end) in
              {| response :=
                   report
                     {| count_key :=
                          match a with
                          | Retweet => lit "retweeted_count"
                          | Like => lit "liked_count"
                          | Comment => lit "commented_count"
                          | Quote => lit "quoted_count"
                          end;
                        success_count := st_successful st;
                        failed_count :=
                          Z.of_nat
                            (length (TwitterActionRequest.attendees request))
                          - st_successful st;
                        total_attempted :=
                          match a with
                          | Quote =>
                              Some (Z.of_nat
                                      (length
                                         (TwitterActionRequest.attendees
                                            request)))
                          | _ => None
                          end;
                        results := st_results st |};
                 final_world := st_world st;
                 events := st_trace st |}) as [w2 Hrun].
  { destruct a; simpl;
      unfold retweet_posts, like_posts, post_comments, post_quote_tweets;
      rewrite Hnew.
    1-3: destruct (is_operational tc w1) as [[[]|e] w2]; [|done..];
         by exists w2.
    destruct (api tc); [|done]. by exists w1. }
  destruct (batch_loop_passes rt a tc (TwitterActionRequest.message request)
              (TwitterActionRequest.attendees request)
              (loop_init w2
                 match a with Quote => [] | _ => [CallIsOperational] end))
    as (ps & Hps & Hrs & Hts & Hcs).
  exists ps. eexists. split; [done|]. split; [done|].
  rewrite Hrun. simpl. split; [reflexivity|]. simpl.
  rewrite Hrs, Hts, Hcs. simpl. split_and!; try done; lia.
Qed.

(** A report is only ever returned past the pre-check. *)
Lemma report_passes_pre_check {W : Type} (rt : PyRuntime) (svc : Services W)
    (a : Action) (request : TwitterActionRequest.t) (w : W)
    (r : BatchActionReport) :
  response (batch_handler rt svc a request w) = report r ->
  passes_pre_check svc a w = true.
Proof.
  unfold passes_pre_check.
  destruct a; simpl;
    unfold retweet_posts, like_posts, post_comments, post_quote_tweets;
    repeat case_match; simpl; try done.
Qed.

(** ** Counts, calls and sleeps of a whole batch *)

Section PassLists.
Context {W : Type} (rt : PyRuntime) (a : Action) (tc : TwitterClient W)
  (message : option pystr).

Lemma dispatch_event_is_call attendee call :
  dispatch_event rt a tc message attendee = Some call ->
  is_action_call call = true.
Proof.
  unfold dispatch_event. repeat case_match; try done; by intros [= <-].
Qed.

Lemma succeeded_failed_length (outs : list ActionOutcome) :
  (length (succeeded outs) + length (List.filter is_failed outs))%nat
  = length outs.
Proof.
  induction outs as [|o outs IH]; [done|]. unfold succeeded in *. simpl.
  destruct (is_failed o); simpl; lia.
Qed.

Lemma passes_counts attendees ps :
  Forall2 (pass_ok rt a tc message) attendees ps ->
  Z.of_nat (length (succeeded (List.map pass_outcome ps))) <= counted ps
  /\ counted ps <= Z.of_nat (length attendees)
  /\ (a <> Comment ->
      counted ps = Z.of_nat (length (succeeded (List.map pass_outcome ps)))).
Proof.
  induction 1 as [|attendee p attendees ps Hp _ IH].
  - unfold counted. simpl. lia.
  - rewrite counted_cons. destruct IH as (IH1 & IH2 & IH3).
    destruct Hp as (_ & Hc1 & Hc2 & _).
    unfold succeeded in *. simpl length. simpl List.map. simpl List.filter.
    destruct (is_failed (pass_outcome p)) eqn:Hf; simpl.
    + split_and!; [destruct (pass_counted p); lia.. |].
      intros Ha. rewrite (IH3 Ha).
      destruct (pass_counted p); [|lia]. by specialize (Hc2 Ha eq_refl).
    + rewrite (Hc1 eq_refl). split_and!; [lia..|].
      intros Ha. rewrite (IH3 Ha). lia.
Qed.


Lemma passes_sleeps attendees ps :
  Forall2 (pass_ok rt a tc message) attendees ps ->
  let evs := concat (List.map pass_events ps) in
  let sleeps := List.filter is_sleep evs in
  sleeps = repeat (Sleep (pacing_delay a)) (length sleeps)
  /\ (length (succeeded (List.map pass_outcome ps)) <= length sleeps)%nat
  /\ (length sleeps <= length (List.filter is_action_call evs))%nat
  /\ (length (List.filter is_action_call evs) <= length attendees)%nat
  /\ (a = Quote -> Z.of_nat (length sleeps) = counted ps).
Proof.
  induction 1 as [|attendee p attendees ps Hp _ IH].
  - unfold counted. simpl. split_and!; done.
  - simpl. destruct IH as (IH1 & IH2 & IH3 & IH4 & IH5).
    rewrite !List.filter_app, !length_app, repeat_app, counted_cons.
    rewrite <- IH1. unfold succeeded in *. simpl.
    destruct Hp as (_ & Hc1 & Hc2 & Hev).
    destruct (dispatch_event rt a tc message attendee) as [call|] eqn:Hd.
    + apply dispatch_event_is_call in Hd.
      assert (is_sleep call = false) as Hs by (by destruct call).
      destruct Hev as [(-> & -> & Hn)|(-> & Hq)]; simpl; rewrite Hd, Hs; simpl.
      * split_and!; try done; try lia.
        intros ->. rewrite Hn; [|done]. rewrite <- IH5; [lia|done].
      * split_and!; try done;
          try (destruct (is_failed (pass_outcome p)); simpl; lia).
        intros ->. rewrite Hq; [|done]. rewrite <- IH5; [lia|done].
    + destruct Hev as (-> & -> & ->). simpl.
      split_and!; try done; lia.
Qed.

End PassLists.

(** X1: in a report, the success count lies between the number of
    outcomes that are not [failed] and the batch size, so neither count
    is negative; on the retweet, like and quote routes the two counts
    are exactly the numbers of succeeded and of failed outcomes. *)
Theorem counts_match_outcomes {W : Type} (rt : PyRuntime) (svc : Services W)
    (a : Action) (request : TwitterActionRequest.t) (w : W)
    (r : BatchActionReport) :
  response (batch_handler rt svc a request w) = report r ->
  Z.of_nat (length (succeeded (results r))) <= success_count r
  /\ success_count r
     <= Z.of_nat (length (TwitterActionRequest.attendees request))
  /\ 0 <= failed_count r
  /\ (a <> Comment ->
      success_count r = Z.of_nat (length (succeeded (results r)))
      /\ failed_count r
         = Z.of_nat (length (List.filter is_failed (results r)))).
Proof.
  intros Hr.
  destruct (batch_handler_passes rt svc a request w
              (report_passes_pre_check rt svc a request w r Hr))
    as (tc & w1 & ps & r' & _ & Hps & Hr' & Hres & Hsucc & Hfail & _).
  rewrite Hr in Hr'. injection Hr' as <-.
  destruct (passes_counts rt a tc _ _ _ Hps) as (H1 & H2 & H3).
  rewrite Hres, Hsucc, Hfail. split_and!; try lia.
  intros Ha. specialize (H3 Ha). split; [done|].
  pose proof (succeeded_failed_length (List.map pass_outcome ps)) as Hlen.
  rewrite length_map in Hlen.
  apply Forall2_length in Hps. lia.
Qed.

Lemma counts_match_outcomes_witness :
  exists r,
    response (batch_handler ascii_runtime (scripted_services true true) Like
                (request_of three_attendees None) 0%nat) = report r
    /\ success_count r = Z.of_nat (length (succeeded (results r)))
    /\ failed_count r = Z.of_nat (length (List.filter is_failed (results r))).
Proof.
  eexists. split; [reflexivity|].
  apply (counts_match_outcomes ascii_runtime (scripted_services true true)
           Like (request_of three_attendees None) 0%nat);
    [reflexivity | discriminate].
Defined.



(** X3: in a report's run every sleep is the route's pacing delay; there
    are at least as many sleeps as succeeded outcomes, at most as many as
    action calls, and at most as many calls as attendees; on the quote
    route the sleeps are exactly as many as the success count. *)
Theorem sleeps_are_bounded {W : Type} (rt : PyRuntime) (svc : Services W)
    (a : Action) (request : TwitterActionRequest.t) (w : W)
    (r : BatchActionReport) :
  response (batch_handler rt svc a request w) = report r ->
  let evs := events (batch_handler rt svc a request w) in
  let sleeps := List.filter is_sleep evs in
  sleeps = repeat (Sleep (pacing_delay a)) (length sleeps)
  /\ (length (succeeded (results r)) <= length sleeps)%nat
  /\ (length sleeps <= length (List.filter is_action_call evs))%nat
  /\ (length (List.filter is_action_call evs)
      <= length (TwitterActionRequest.attendees request))%nat
  /\ (a = Quote -> Z.of_nat (length sleeps) = success_count r).
Proof.
  intros Hr.
  destruct (batch_handler_passes rt svc a request w
              (report_passes_pre_check rt svc a request w r Hr))
    as (tc & w1 & ps & r' & _ & Hps & Hr' & Hres & Hsucc & _ & Hev).
  rewrite Hr in Hr'. injection Hr' as <-.
  pose proof (passes_sleeps rt a tc _ _ _ Hps) as H. simpl in H.
  simpl. rewrite Hev, Hres, Hsucc, !List.filter_app.
  by destruct a.
Qed.

Lemma sleeps_are_bounded_witness :
  exists r,
    response (batch_handler ascii_runtime (scripted_services true true) Quote
                (request_of three_attendees None) 0%nat) = report r
    /\ Z.of_nat
         (length
            (List.filter is_sleep
               (events
                  (batch_handler ascii_runtime (scripted_services true true)
                     Quote (request_of three_attendees None) 0%nat))))
       = success_count r.
Proof.
  eexists. split; [reflexivity|].
  apply (sleeps_are_bounded ascii_runtime (scripted_services true true) Quote
           (request_of three_attendees None) 0%nat); reflexivity.
Defined.

(** ** What the extractor finds *)

Section StatusPattern.
Context (rt : PyRuntime).

Lemma match_here_chars_app (l : pystr) p g s' :
  Re.match_here rt (List.map Re.Chr l ++ p) g (l ++ s')
  = Re.match_here rt p g s'.
Proof.
  induction l as [|c l IH]; [done|]. simpl. by rewrite N.eqb_refl.
Qed.

Lemma match_here_chars_inv (l : pystr) p g s r :
  Re.match_here rt (List.map Re.Chr l ++ p) g s = Some r ->
  exists s', s = l ++ s' /\ Re.match_here rt p g s' = Some r.
Proof.
  revert s. induction l as [|c l IH]; intros s; simpl.
  - intros H. by exists s.
  - destruct s as [|x s]; [done|].
    destruct (N.eqb_spec x c) as [->|_]; [|done].
    intros H. destruct (IH _ H) as (s' & -> & Hm). by exists s'.
Qed.

(** A greedy [+] at the end of a pattern takes the whole run. *)
Lemma plus_greedy_final_Some {R} (f : pystr -> R) c taken s r :
  Re.plus_greedy rt c (fun t _ => Some (f t)) taken s = Some r ->
  exists run rest,
    s = run ++ rest /\ run <> []
    /\ Forall (fun x => Re.in_cls rt c x = true) run
    /\ match rest with
       | [] => True
       | x :: _ => Re.in_cls rt c x = false
       end
    /\ r = f (taken ++ run).
Proof.
  revert taken. induction s as [|x s IH]; intros taken; simpl; [done|].
  destruct (Re.in_cls rt c x) eqn:Hx; [|done].
  destruct (Re.plus_greedy rt c (fun t _ => Some (f t)) (taken ++ [x]) s)
    as [r'|] eqn:Hg.
  - intros [= ->].
    destruct (IH _ Hg) as (run & rest & -> & _ & Hall & Hrest & ->).
    exists (x :: run), rest. rewrite <- app_assoc.
    split_and!; [done | done | by constructor | done | done].
  - intros [= <-]. exists [x], s.
    split_and!; [done | done | by repeat constructor | | done].
    destruct s as [|y s]; [done|]. simpl in Hg.
    destruct (Re.in_cls rt c y); [|done].
    by destruct (Re.plus_greedy rt c _ ((taken ++ [x]) ++ [y]) s).
Qed.

Lemma plus_greedy_final_head {R} (f : pystr -> R) c taken x s :
  Re.in_cls rt c x = true ->
  is_Some (Re.plus_greedy rt c (fun t _ => Some (f t)) taken (x :: s)).
Proof.
  intros Hx. simpl. rewrite Hx.
  by destruct (Re.plus_greedy rt c _ (taken ++ [x]) s).
Qed.

Lemma match_here_status_Some g s r :
  Re.match_here rt pattern_status g s = Some r ->
  exists t rest,
    s = lit "status/" ++ t ++ rest /\ t <> []
    /\ Forall (fun x => Re.in_cls rt Re.Digit x = true) t
    /\ no_digit_ahead rt rest /\ r = Some t.
Proof.
  intros H.
  apply (match_here_chars_inv (lit "status/") [Re.Plus Re.Digit true]) in H
    as (s' & -> & H).
  apply (plus_greedy_final_Some (fun t => Some t)) in H
    as (run & rest & -> & Hne & Hall & Hrest & ->).
  by exists run, rest.
Qed.

Lemma match_here_status_head g d rest :
  Re.in_cls rt Re.Digit d = true ->
  is_Some (Re.match_here rt pattern_status g (lit "status/" ++ d :: rest)).
Proof.
  intros Hd.
  change pattern_status
    with (List.map Re.Chr (lit "status/") ++ [Re.Plus Re.Digit true]).
  rewrite match_here_chars_app.
  by apply (plus_greedy_final_head (fun t => Some t)).
Qed.

(** [re.search] returns the match at the leftmost position that has one. *)
Lemma search_leftmost p s r :
  Re.search rt p s = Some r ->
  exists pre s',
    s = pre ++ s' /\ Re.match_here rt p None s' = Some r
    /\ forall pre1 s1,
         s = pre1 ++ s1 -> (length pre1 < length pre)%nat ->
         Re.match_here rt p None s1 = None.
Proof.
  induction s as [|x s IH]; simpl.
  - destruct (Re.match_here rt p None []) eqn:H; [|done].
    intros [= ->]. exists [], []. split_and!; [done | done |].
    simpl. lia.
  - destruct (Re.match_here rt p None (x :: s)) eqn:H.
    + intros [= ->]. exists [], (x :: s). split_and!; [done | done |].
      simpl. lia.
    + intros Hs. destruct (IH Hs) as (pre & s' & -> & Hm & Hleft).
      exists (x :: pre), s'. split_and!; [done | done |].
      intros [|y pre1] s1; simpl.
      * by intros <-.
      * intros [= <- Heq] Hlen. apply (Hleft pre1); [done | lia].
Qed.

(** Only the first pattern decides. *)
Lemma first_group_patterns s :
  first_group rt patterns s
  = match Re.search rt pattern_status s with
    | Some g => g
    | None => None
    end.
Proof.
  unfold patterns, first_group.
  destruct (Re.search rt pattern_status s) as [g|] eqn:Hs; [done|].
  change pattern_twitter_user with
    ((Re.chars "twitter.com/" ++ [Re.Plus Re.Word false] ++ Re.chars "/")
       ++ pattern_status).
  change pattern_twitter with (Re.chars "twitter.com/" ++ pattern_status).
  change pattern_x_user with
    ((Re.chars "x.com/" ++ [Re.Plus Re.Word false] ++ Re.chars "/")
       ++ pattern_status).
  by rewrite !(search_app_None rt _ _ _ Hs).
Qed.

Lemma search_status_group s r :
  Re.search rt pattern_status s = Some r -> exists t, r = Some t.
Proof.
  intros H. apply search_Some in H as (s' & _ & H).
  apply match_here_status_Some in H as (t & _ & _ & _ & _ & _ & ->). eauto.
Qed.

End StatusPattern.

(** Where a found identifier stands in the link. *)
Lemma extract_tweet_id_Some_inv (rt : PyRuntime) (s t : pystr) :
  extract_tweet_id rt (VStr s) = Some t ->
  exists pre rest,
    s = pre ++ lit "status/" ++ t ++ rest
    /\ t <> []
    /\ Forall (fun x => Re.in_cls rt Re.Digit x = true) t
    /\ no_digit_ahead rt rest
    /\ forall pre', status_digit_at rt s pre' ->
         (length pre <= length pre')%nat.
Proof.
  unfold extract_tweet_id, extract_tweet_id_body.
  rewrite first_group_patterns.
  destruct (Re.search rt pattern_status s) as [g|] eqn:Hs; [|done].
  intros ->. apply search_leftmost in Hs as (pre & s' & -> & Hm & Hleft).
  pose proof Hm as Hm'.
  apply match_here_status_Some in Hm'
    as (t0 & rest & -> & Hne & Hall & Hrest & [= <-]).
  exists pre, rest. split_and!; try done.
  intros pre' (d & rest' & Heq & Hd).
  destruct (decide (length pre <= length pre')%nat) as [|Hlt]; [done|].
  specialize (Hleft pre' _ Heq ltac:(lia)).
  destruct (match_here_status_head rt None d rest' Hd) as [r Hr].
  congruence.
Qed.

Lemma extract_tweet_id_None_iff (rt : PyRuntime) (post_link : pyval) :
  extract_tweet_id rt post_link = None
  <-> forall s pre, post_link = VStr s -> ~ status_digit_at rt s pre.
Proof.
  split.
  - intros Hnone s pre -> (d & rest & Heq & Hd).
    unfold extract_tweet_id, extract_tweet_id_body in Hnone.
    rewrite first_group_patterns in Hnone.
    destruct (Re.search rt pattern_status s) as [g|] eqn:Hs.
    + apply search_status_group in Hs as (t & ->). done.
    + pose proof (search_None rt _ _ Hs (lit "status/" ++ d :: rest)) as Hn.
      destruct (match_here_status_head rt None d rest Hd) as [r Hr].
      rewrite Hn in Hr; [done|]. rewrite Heq. by apply suffix_app_r.
  - intros Hno.
    destruct (extract_tweet_id rt post_link) as [t|] eqn:Hx; [|done].
    destruct post_link as [| | | |s| |]; try done.
    apply extract_tweet_id_Some_inv in Hx
      as (pre & rest & Heq & Hne & Hall & _ & _).
    destruct t as [|d t]; [done|]. destruct (Hno s pre eq_refl).
    exists d, (t ++ rest). split; [done | by inversion Hall].
Qed.

(** X4: an identifier the extractor finds stands in the link right after
    the leftmost ["status/"] that a decimal digit follows, and is the
    whole run of digits there. *)
Theorem extract_tweet_id_found (rt : PyRuntime) (s t : pystr) :
  extract_tweet_id rt (VStr s) = Some t ->
  exists pre rest,
    s = pre ++ lit "status/" ++ t ++ rest
    /\ t <> []
    /\ Forall (fun x => Re.in_cls rt Re.Digit x = true) t
    /\ no_digit_ahead rt rest
    /\ forall pre', status_digit_at rt s pre' ->
         (length pre <= length pre')%nat.
Proof. apply extract_tweet_id_Some_inv. Qed.

Lemma extract_tweet_id_found_witness :
  exists pre rest,
    lit "https://x.com/u/status/42?s=20"
    = pre ++ lit "status/" ++ lit "42" ++ rest
    /\ lit "42" <> []
    /\ Forall (fun x => Re.in_cls ascii_runtime Re.Digit x = true) (lit "42")
    /\ no_digit_ahead ascii_runtime rest
    /\ forall pre',
         status_digit_at ascii_runtime
           (lit "https://x.com/u/status/42?s=20") pre' ->
         (length pre <= length pre')%nat.
Proof.
  apply (extract_tweet_id_found ascii_runtime
           (lit "https://x.com/u/status/42?s=20") (lit "42")).
  reflexivity.
Defined.

(** X5: the extractor finds nothing exactly when its argument is not a
    string in which ["status/"] is somewhere followed by a decimal
    digit. *)
Theorem extract_tweet_id_not_found (rt : PyRuntime) (post_link : pyval) :
  extract_tweet_id rt post_link = None
  <-> forall s pre, post_link = VStr s -> ~ status_digit_at rt s pre.
Proof. apply extract_tweet_id_None_iff. Qed.

(** ** Items that never reach the call *)

Section SkippedItems.
Context {W : Type} (rt : PyRuntime).
Implicit Types (tc : TwitterClient W) (st : @loop_state W).

Lemma batch_loop_step a tc message pre attendee post st st' :
  batch_item rt a tc message attendee (batch_loop rt a tc message pre st)
  = st' ->
  batch_loop rt a tc message (pre ++ attendee :: post) st
  = batch_loop rt a tc message post st'.
Proof. intros <-. by rewrite batch_loop_app, batch_loop_cons. Qed.

Lemma missing_link_falsy (attendee : pydict) :
  attendee !! lit "post_link" = None
  \/ (exists v, attendee !! lit "post_link" = Some v /\ truthy v = false) ->
  truthy (attendee_post_link attendee) = false.
Proof.
  unfold attendee_post_link, dict_get.
  by intros [-> | (v & -> & Hv)].
Qed.

End SkippedItems.

(** X6: in every batch loop, an attendee whose post link is missing or
    falsy (empty string, null, zero) gets the outcome [failed] with
    "No post link available"; nothing is called, no delay is charged,
    nothing is counted, and the loop goes on. *)
Theorem item_without_post_link {W : Type} (rt : PyRuntime) (a : Action)
    (tc : TwitterClient W) (message : option pystr)
    (pre : list pydict) (attendee : pydict) (post : list pydict)
    (st : loop_state) :
  attendee !! lit "post_link" = None
  \/ (exists v, attendee !! lit "post_link" = Some v /\ truthy v = false) ->
  batch_loop rt a tc message (pre ++ attendee :: post) st
  = batch_loop rt a tc message post
      (results_append
         (failed (attendee_username attendee)
            (VStr (lit "No post link available")))
         (batch_loop rt a tc message pre st)).
Proof.
  intros Hl. apply missing_link_falsy in Hl.
  apply batch_loop_step. unfold attendee_post_link in Hl.
  destruct a; simpl;
    unfold retweet_item, like_item, comment_item, quote_item;
    by rewrite Hl.
Qed.

Lemma item_without_post_link_witness :
  batch_loop ascii_runtime Like (scripted_client true true) None
    ([] ++ {[ lit "username" := VStr (lit "@zed") ]} :: three_attendees)
    (loop_init 1%nat [CallIsOperational])
  = batch_loop ascii_runtime Like (scripted_client true true) None
      three_attendees
      (results_append
         (failed (VStr (lit "@zed")) (VStr (lit "No post link available")))
         (loop_init 1%nat [CallIsOperational])).
Proof.
  assert (({[ lit "username" := VStr (lit "@zed") ]} : pydict)
            !! lit "post_link" = None) as Hmissing
    by (vm_compute; reflexivity).
  vm_exact
    (item_without_post_link ascii_runtime Like (scripted_client true true)
       None [] {[ lit "username" := VStr (lit "@zed") ]} three_attendees
       (loop_init 1%nat [CallIsOperational]) (or_introl Hmissing)).
Defined.

(** X7: in every batch loop, an attendee whose post link is truthy but
    yields no identifier gets the outcome [failed] with "Could not
    extract tweet ID from link"; nothing is called, no delay is charged,
    nothing is counted, and the loop goes on. *)
Theorem item_without_identifier {W : Type} (rt : PyRuntime) (a : Action)
    (tc : TwitterClient W) (message : option pystr)
    (pre : list pydict) (attendee : pydict) (post : list pydict)
    (st : loop_state) :
  truthy (attendee_post_link attendee) = true ->
  extract_tweet_id rt (attendee_post_link attendee) = None ->
  batch_loop rt a tc message (pre ++ attendee :: post) st
  = batch_loop rt a tc message post
      (results_append
         (failed (attendee_username attendee)
            (VStr (lit "Could not extract tweet ID from link")))
         (batch_loop rt a tc message pre st)).
Proof.
  intros Hl Hx. apply batch_loop_step. unfold attendee_post_link in *.
  destruct a; simpl;
    unfold retweet_item, like_item, comment_item, quote_item;
    by rewrite Hl, Hx.
Qed.

Lemma item_without_identifier_witness :
  batch_loop ascii_runtime Quote (scripted_client true true) None
    ([] ++ {[ lit "username" := VStr (lit "@zed");
              lit "post_link" := VInt 12345 ]} :: three_attendees)
    (loop_init 0%nat [])
  = batch_loop ascii_runtime Quote (scripted_client true true) None
      three_attendees
      (results_append
         (failed (VStr (lit "@zed"))
            (VStr (lit "Could not extract tweet ID from link")))
         (loop_init 0%nat [])).
Proof.
  assert (truthy
            (attendee_post_link
               {[ lit "username" := VStr (lit "@zed");
                  lit "post_link" := VInt 12345 ]}) = true) as Hlink
    by (vm_compute; reflexivity).
  assert (extract_tweet_id ascii_runtime
            (attendee_post_link
               {[ lit "username" := VStr (lit "@zed");
                  lit "post_link" := VInt 12345 ]}) = None) as Hnone
    by (vm_compute; reflexivity).
  vm_exact
    (item_without_identifier ascii_runtime Quote
       (scripted_client true true) None []
       {[ lit "username" := VStr (lit "@zed");
          lit "post_link" := VInt 12345 ]} three_attendees
       (loop_init 0%nat []) Hlink Hnone).
Defined.

(** X8: on the comment and quote routes an attendee whose username is not
    a string, with a post link that yields an identifier, gets the
    outcome [failed] with the AttributeError text of [replace]; nothing
    is called, no delay is charged, and the loop goes on. *)
Theorem item_with_non_string_username {W : Type} (rt : PyRuntime)
    (a : Action) (tc : TwitterClient W) (message : option pystr)
    (pre : list pydict) (attendee : pydict) (post : list pydict)
    (st : loop_state) (tweet_id : pystr) :
  a = Comment \/ a = Quote ->
  (forall s, attendee_username attendee <> VStr s) ->
  truthy (attendee_post_link attendee) = true ->
  extract_tweet_id rt (attendee_post_link attendee) = Some tweet_id ->
  batch_loop rt a tc message (pre ++ attendee :: post) st
  = batch_loop rt a tc message post
      (results_append
         (failed (attendee_username attendee)
            (VStr (lit "'" ++ type_name (attendee_username attendee)
                     ++ lit "' object has no attribute 'replace'")))
         (batch_loop rt a tc message pre st)).
Proof.
  intros Ha Hu Hl Hx. apply batch_loop_step.
  pose proof (extract_tweet_id_digits rt _ _ Hx) as [Hne _].
  unfold attendee_post_link, attendee_username in *.
  destruct tweet_id as [|c s]; [done|].
  destruct Ha as [-> | ->]; simpl; unfold comment_item, quote_item;
    rewrite Hl, Hx;
    destruct (dict_get attendee (lit "username") (VStr [])) as [| | | |name| |];
    try done; by destruct (Hu name).
Qed.

Lemma item_with_non_string_username_witness :
  batch_loop ascii_runtime Comment (scripted_client true true) None
    ([] ++ {[ lit "username" := VInt 7;
              lit "post_link" := VStr (lit "https://x.com/u/status/1") ]}
        :: three_attendees)
    (loop_init 1%nat [CallIsOperational])
  = batch_loop ascii_runtime Comment (scripted_client true true) None
      three_attendees
      (results_append
         (failed (VInt 7)
            (VStr (lit "'int' object has no attribute 'replace'")))
         (loop_init 1%nat [CallIsOperational])).
Proof.
  assert (forall s,
            attendee_username
              {[ lit "username" := VInt 7;
                 lit "post_link" := VStr (lit "https://x.com/u/status/1") ]}
            <> VStr s) as Hname
    by (intros s; vm_compute; discriminate).
  assert (truthy
            (attendee_post_link
               {[ lit "username" := VInt 7;
                  lit "post_link" := VStr (lit "https://x.com/u/status/1") ]})
          = true) as Hlink
    by (vm_compute; reflexivity).
  assert (extract_tweet_id ascii_runtime
            (attendee_post_link
               {[ lit "username" := VInt 7;
                  lit "post_link" := VStr (lit "https://x.com/u/status/1") ]})
          = Some (lit "1")) as Hid
    by (vm_compute; reflexivity).
  vm_exact
    (item_with_non_string_username ascii_runtime Comment
       (scripted_client true true) None []
       {[ lit "username" := VInt 7;
          lit "post_link" := VStr (lit "https://x.com/u/status/1") ]}
       three_attendees (loop_init 1%nat [CallIsOperational]) (lit "1")
       (or_introl eq_refl) Hname Hlink Hid).
Defined.

(** ** Comment results *)




(** The same seen from the route: one success counted, none failed, and
    the only outcome a failed one. *)
Example comment_report_disagrees_with_results :
  response (post_comments ascii_runtime terse_services
              (request_of [attendee_of "@alice" "https://x.com/alice/status/1"]
                 None) 0%nat)
  = report
      {| count_key := lit "commented_count";
         success_count := 1;
         failed_count := 0;
         total_attempted := None;
         results :=
           [failed (VStr (lit "@alice")) (VStr (lit "'tweet_id'"))] |}.
Proof. vm_compute. reflexivity. Qed.





(** ** Quote tweets *)




(** X13: on the quote route the post link only decides whether the item
    is attempted: two attendees with the same username whose links both
    yield an identifier cause the same call, leave the same world and
    move the success counter alike, whatever the two identifiers are. *)
Theorem quote_ignores_the_identifier {W : Type} (rt : PyRuntime)
    (tc : TwitterClient W) (message : option pystr)
    (attendee1 attendee2 : pydict) (st : loop_state) (t1 t2 : pystr) :
  attendee_username attendee1 = attendee_username attendee2 ->
  truthy (attendee_post_link attendee1) = true ->
  truthy (attendee_post_link attendee2) = true ->
  extract_tweet_id rt (attendee_post_link attendee1) = Some t1 ->
  extract_tweet_id rt (attendee_post_link attendee2) = Some t2 ->
  st_trace (quote_item rt tc message attendee1 st)
  = st_trace (quote_item rt tc message attendee2 st)
  /\ st_world (quote_item rt tc message attendee1 st)
     = st_world (quote_item rt tc message attendee2 st)
  /\ st_successful (quote_item rt tc message attendee1 st)
     = st_successful (quote_item rt tc message attendee2 st)
  /\ List.map is_failed (st_results (quote_item rt tc message attendee1 st))
     = List.map is_failed (st_results (quote_item rt tc message attendee2 st)).
Proof.
  intros Hu Hl1 Hl2 Hx1 Hx2.
  pose proof (extract_tweet_id_digits rt _ _ Hx1) as [Hne1 _].
  pose proof (extract_tweet_id_digits rt _ _ Hx2) as [Hne2 _].
  unfold attendee_username, attendee_post_link in *.
  unfold quote_item. rewrite Hl1, Hl2, Hx1, Hx2, Hu. simpl.
  destruct t1 as [|c1 s1]; [done|]. destruct t2 as [|c2 s2]; [done|].
  destruct (username_replace_at (dict_get attendee2 (lit "username") (VStr [])))
    as [clean|e]; simpl.
  2:{ by rewrite !List.map_app. }
  destruct (api tc) as [twitter_client_api|]; simpl.
  2:{ by rewrite !List.map_app. }
  destruct (update_status twitter_client_api _ (st_world st))
    as [[tweet|e] w']; simpl; by rewrite !List.map_app.
Qed.

Lemma quote_ignores_the_identifier_witness :
  st_trace (quote_item ascii_runtime (scripted_client true true) None
              (attendee_of "@alice" "https://twitter.com/alice/status/1")
              (loop_init 0%nat []))
  = st_trace (quote_item ascii_runtime (scripted_client true true) None
                (attendee_of "@alice" "https://x.com/other/status/777")
                (loop_init 0%nat [])).
Proof.
  apply (quote_ignores_the_identifier ascii_runtime
           (scripted_client true true) None
           (attendee_of "@alice" "https://twitter.com/alice/status/1")
           (attendee_of "@alice" "https://x.com/other/status/777")
           (loop_init 0%nat []) (lit "1") (lit "777"));
    vm_compute; reflexivity.
Defined.

(** ** Faults before the loop *)



(** ** The fallback classes *)


(** ** The health check and the pre-checks *)

(** X16: the health check's [twitter_search_ready] says whether the
    retweet, like and comment routes would get past their pre-check from
    the same world, and [twitter_actions_ready] says so for the quote
    route. *)
Theorem health_flags_predict_pre_checks {W : Type} (svc : Services W)
    (w : W) (h : HealthResponse) :
  response (health_check svc w) = Returns h ->
  twitter_search_ready h = passes_pre_check svc Retweet w
  /\ twitter_search_ready h = passes_pre_check svc Like w
  /\ twitter_search_ready h = passes_pre_check svc Comment w
  /\ twitter_actions_ready h = passes_pre_check svc Quote w.
Proof.
  unfold health_check, passes_pre_check.
  destruct (TwitterClient_new svc w) as [[tc|e] w1]; [|done].
  destruct (is_operational tc w1) as [[ready|e] w2]; [|done].
  simpl. intros [= <-]. simpl. by destruct ready, (api tc).
Qed.

Lemma health_flags_predict_pre_checks_witness :
  exists h,
    response (health_check (scripted_services true false) 0%nat) = Returns h
    /\ twitter_search_ready h
       = passes_pre_check (scripted_services true false) Retweet 0%nat
    /\ twitter_actions_ready h
       = passes_pre_check (scripted_services true false) Quote 0%nat.
Proof.
  eexists. split; [reflexivity|].
  pose proof (health_flags_predict_pre_checks (scripted_services true false)
                0%nat _ eq_refl) as (H1 & _ & _ & H4).
  by split.
Defined.
